(** * Word lists: tokenising text and counting word-list members

    A shallow embedding of the text functions of [05_Word_Lists.ipynb]:
    [word_count], [text_to_words] and [count_occurences].

    A Python [str] is a sequence of Unicode code points; it is modelled as a
    list of code points, each an [N].  The built-in methods the notebook calls
    ([str.lower], [str.split], [in], [len], [''.join]) are written out below
    the way CPython performs them.  The ASCII part of every table is spelled
    out; the non-ASCII part of the Unicode character database (the lower-case
    mapping and the two properties the final-sigma rule consults) is a
    parameter of the development. *)

From Stdlib Require Import String Ascii List NArith Arith Bool Lia.
From Stdlib Require Import Permutation Reals Lra.
Import ListNotations.

(** ** Python strings *)

Definition codepoint := N.
Definition pystr := list codepoint.

(** Reading a literal: the code points of an ASCII string. *)
Definition codes (s : string) : pystr :=
  map N_of_ascii (list_ascii_of_string s).

Definition pystr_eqb (a b : pystr) : bool :=
  if list_eq_dec N.eq_dec a b then true else false.

(** [x in xs] for a sequence of strings [xs]: some element equals [x]. *)
Definition str_in (w : pystr) (word_list : list pystr) : bool :=
  existsb (pystr_eqb w) word_list.

(** [ch in p] for a one-character [ch] and a string [p]. *)
Definition char_in (ch : codepoint) (p : pystr) : bool :=
  existsb (N.eqb ch) p.

(** ** Character classes *)

Definition is_ascii (c : codepoint) : bool := (c <? 128)%N.

Definition is_ascii_upper (c : codepoint) : bool :=
  ((65 <=? c) && (c <=? 90))%N.

Definition ascii_lower (c : codepoint) : codepoint :=
  if is_ascii_upper c then (c + 32)%N else c.

(** The characters [str.split()] separates on, which are those of
    [str.isspace]: tab, line feed, vertical tab, form feed, carriage return,
    the four information separators and the space in ASCII, then the
    non-ASCII white space of Unicode. *)
Definition py_isspace (c : codepoint) : bool :=
  (((9 <=? c) && (c <=? 13)) || ((28 <=? c) && (c <=? 32))
   || (c =? 133) || (c =? 160) || (c =? 5760)
   || ((8192 <=? c) && (c <=? 8202))
   || (c =? 8232) || (c =? 8233) || (c =? 8239) || (c =? 8287)
   || (c =? 12288))%N.

(** The string [p] of [text_to_words], the 32 punctuation characters of
    ASCII: code points 33 to 47, 58 to 64, 91 to 96 and 123 to 126.  The
    double quote (34) is given by its number. *)
Definition p : pystr :=
  codes "!" ++ [34%N] ++ codes "#$%&'()*+,-./:;<=>?@[\]^_`{|}~".

Definition is_punct (c : codepoint) : bool := char_in c p.

(** ** Python objects and exceptions *)

Inductive pyobj : Type :=
| PyNone
| PyFloat
| PyStr (s : pystr).

Inductive exn : Type :=
| AttributeError.

Inductive result (A : Type) : Type :=
| Ok (a : A)
| Raise (e : exn).

Arguments Ok {A} a.
Arguments Raise {A} e.

(** ** The notebook's functions *)

Section WordLists.

(** The Unicode character database outside ASCII: the full lower-case
    mapping of a code point (one to three code points) and the properties
    Cased and Case_Ignorable. *)
Variable unicode_lower : codepoint -> list codepoint.
Variable is_cased : codepoint -> bool.
Variable is_case_ignorable : codepoint -> bool.

Definition to_lower_full (c : codepoint) : list codepoint :=
  if is_ascii c then [ascii_lower c] else unicode_lower c.

Fixpoint skip_case_ignorable (s : pystr) : pystr :=
  match s with
  | [] => []
  | c :: rest => if is_case_ignorable c then skip_case_ignorable rest else s
  end.

(** A capital sigma (U+03A3) is in final position when a cased letter
    precedes it and none follows, case-ignorable characters skipped on
    both sides.  [before] holds the characters to the left, nearest
    first. *)
Definition final_sigma (before after : pystr) : bool :=
  match skip_case_ignorable before with
  | [] => false
  | c :: _ =>
      is_cased c &&
      match skip_case_ignorable after with
      | [] => true
      | d :: _ => negb (is_cased d)
      end
  end.

Definition handle_capital_sigma (before after : pystr) : codepoint :=
  if final_sigma before after then 962%N else 963%N.

Definition lower_ucs4 (before : pystr) (c : codepoint) (after : pystr)
  : list codepoint :=
  if (c =? 931)%N then [handle_capital_sigma before after]
  else to_lower_full c.

Fixpoint lower_from (before s : pystr) : pystr :=
  match s with
  | [] => []
  | c :: rest => lower_ucs4 before c rest ++ lower_from (c :: before) rest
  end.

(** [text.lower()] *)
Definition lower (text : pystr) : pystr := lower_from [] text.

(** [''.join([ch for ch in text if ch not in p])] *)
Definition remove_punctuation (text : pystr) : pystr :=
  filter (fun ch => negb (char_in ch p)) text.

(** [str.split()] with no separator: the maximal runs of characters that
    are not white space, in order.  [cur] is the run being read. *)
Definition flush (cur : pystr) : list pystr :=
  match cur with
  | [] => []
  | _ :: _ => [cur]
  end.

Fixpoint split_from (cur s : pystr) : list pystr :=
  match s with
  | [] => flush cur
  | c :: rest =>
      if py_isspace c then flush cur ++ split_from [] rest
      else split_from (cur ++ [c]) rest
  end.

Definition split (s : pystr) : list pystr := split_from [] s.

(** [word_count]: [len(text_string.split())] *)
Definition word_count (text_string : pystr) : nat :=
  length (split text_string).

Definition text_to_words (text : pystr) : list pystr :=
  let text := lower text in
  let text := remove_punctuation text in
  split text.

Definition count_occurences (text : pystr) (word_list : list pystr) : nat :=
  let text_list := text_to_words text in
  let intersection := filter (fun w => str_in w word_list) text_list in
  length intersection.

(** *** Dynamic typing

    The arguments are untyped in the notebook.  [text.lower()] is an
    attribute lookup: on an object that is not a string ([None], a
    missing value read as a float) it raises [AttributeError] before
    anything else runs. *)
Definition py_text_to_words (text : pyobj) : result (list pystr) :=
  match text with
  | PyStr s => Ok (text_to_words s)
  | PyNone | PyFloat => Raise AttributeError
  end.

Definition py_count_occurences (text : pyobj) (word_list : list pystr)
  : result nat :=
  match py_text_to_words text with
  | Ok text_list =>
      Ok (length (filter (fun w => str_in w word_list) text_list))
  | Raise e => Raise e
  end.

(** *** The valence scorer

    The notebook imports its scorer ([from afinn import Afinn]) and calls
    [afinn.score]; the scorer's code is not in the repository, so the
    definitions below follow the design document. *)

(** Modelled from the spec: the lexicon, which is missing with the scorer;
    a mapping from a term to at most one weight, a signed real number,
    given as the list of (term, weight) pairs it is loaded from. *)
Definition Lexicon := list (pystr * R).

(** Modelled from the spec: the lookup of the missing lexicon store; the
    weight of the term or absent, the first pair of a term deciding. *)
Fixpoint lookup (lexicon : Lexicon) (term : pystr) : option R :=
  match lexicon with
  | [] => None
  | (t, weight) :: rest =>
      if pystr_eqb term t then Some weight else lookup rest term
  end.

(** Modelled from the spec: what a token adds to the missing scorer's sum;
    its weight when found, 0 when absent from the lexicon. *)
Definition weight_of (lexicon : Lexicon) (token : pystr) : R :=
  match lookup lexicon token with
  | Some weight => weight
  | None => 0%R
  end.

(** Modelled from the spec: the sum of the missing scorer, taken in token
    order from 0. *)
Definition score_tokens (lexicon : Lexicon) (tokens : list pystr) : R :=
  fold_left (fun total token => (total + weight_of lexicon token)%R)
            tokens 0%R.

(** Modelled from the spec: the missing [score]; tokenize the text, look
    each token up in the lexicon, sum the weights found. *)
Definition score (text : pystr) (lexicon : Lexicon) : R :=
  score_tokens lexicon (text_to_words text).

End WordLists.

(** ** Definitions the statements use *)

(** The number of tokens that are members of the word set, one for each
    occurrence: the counter as the design words it, to be compared with
    [count_occurences]. *)
Fixpoint member_occurrences (tokens wordSet : list pystr) : nat :=
  match tokens with
  | [] => 0
  | token :: rest =>
      (if in_dec (list_eq_dec N.eq_dec) token wordSet then 1 else 0)
      + member_occurrences rest wordSet
  end.

(** The number of words of [s] that start in [s], when [in_word] tells
    whether a word is already being read where [s] begins. *)
Fixpoint word_starts (in_word : bool) (s : pystr) : nat :=
  match s with
  | [] => 0
  | c :: rest =>
      if py_isspace c then word_starts false rest
      else (if in_word then 0 else 1) + word_starts true rest
  end.

Definition no_space (w : pystr) : bool :=
  forallb (fun c => negb (py_isspace c)) w.

Definition no_punct (w : pystr) : bool :=
  forallb (fun c => negb (is_punct c)) w.

Definition no_capital (w : pystr) : bool :=
  forallb (fun c => negb (is_ascii_upper c)) w.

(** Three facts of the Unicode character database about code points outside
    ASCII: white space has no lower-case mapping; the lower-case mapping of
    any other character contains no white space; no lower-case mapping
    contains an ASCII capital. *)
Definition lower_keeps_space (unicode_lower : codepoint -> list codepoint) :=
  forall c, is_ascii c = false -> py_isspace c = true ->
            unicode_lower c = [c].

Definition lower_makes_no_space
           (unicode_lower : codepoint -> list codepoint) :=
  forall c, is_ascii c = false -> py_isspace c = false ->
            no_space (unicode_lower c) = true.

Definition lower_makes_no_capital
           (unicode_lower : codepoint -> list codepoint) :=
  forall c, is_ascii c = false -> no_capital (unicode_lower c) = true.

(** A small excerpt of the tables, enough to run the functions on the
    capitals of Latin-1 and of Greek, the dotted capital I (which lowers to
    two code points) and the Kelvin sign (which lowers to an ASCII
    letter). *)
Definition sample_lower (c : codepoint) : list codepoint :=
  if (c =? 304)%N then [105%N; 775%N]
  else if (c =? 8490)%N then [107%N]
  else if ((192 <=? c) && (c <=? 222) && negb (c =? 215))%N then [(c + 32)%N]
  else if ((913 <=? c) && (c <=? 939) && negb (c =? 930))%N then [(c + 32)%N]
  else [c].

Definition sample_cased (c : codepoint) : bool :=
  ((65 <=? c) && (c <=? 90) || (97 <=? c) && (c <=? 122)
   || (192 <=? c) && (c <=? 255) && negb (c =? 215) && negb (c =? 247)
   || (c =? 304) || (c =? 8490)
   || (913 <=? c) && (c <=? 971) && negb (c =? 930)
      && negb ((940 <=? c) && (c <=? 944)))%N.

Definition sample_case_ignorable (c : codepoint) : bool :=
  ((c =? 39) || (c =? 46) || (c =? 58) || (c =? 94) || (c =? 96)
   || (c =? 775))%N.

(** The functions on the sample table, and the lexicon of the design's
    examples. *)
Definition sample_text_to_words : pystr -> list pystr :=
  text_to_words sample_lower sample_cased sample_case_ignorable.

Definition sample_count_occurences : pystr -> list pystr -> nat :=
  count_occurences sample_lower sample_cased sample_case_ignorable.

Definition sample_score : pystr -> Lexicon -> R :=
  score sample_lower sample_cased sample_case_ignorable.

Definition sample_lexicon : Lexicon :=
  [(codes "bad", (-3)%R); (codes "horrible", (-3)%R)].

(** ** The callers and further statement definitions *)

(** [word_count] on an untyped argument: [text_string.split()] is an
    attribute lookup and raises [AttributeError] on an object that is not a
    string. *)
Definition py_word_count (text_string : pyobj) : result nat :=
  match text_string with
  | PyStr s => Ok (word_count s)
  | PyNone | PyFloat => Raise AttributeError
  end.

(** [column.apply(f)], as in [nyt_df['commentBody'].apply(word_count)]:
    [f] is called on the rows in order and the results are collected; an
    exception raised by [f] ends the call. *)
Fixpoint series_apply {A : Type} (f : pyobj -> result A)
         (column : list pyobj) : result (list A) :=
  match column with
  | [] => Ok []
  | row :: rest =>
      match f row with
      | Raise e => Raise e
      | Ok a =>
          match series_apply f rest with
          | Raise e => Raise e
          | Ok results => Ok (a :: results)
          end
      end
  end.

Definition is_str (v : pyobj) : bool :=
  match v with
  | PyStr _ => true
  | PyNone | PyFloat => false
  end.

(** The strings [text_to_words] can return as a token. *)
Definition clean_token (w : pystr) : bool :=
  match w with
  | [] => false
  | _ :: _ => no_space w && no_punct w && no_capital w
  end.

(** A further fact of the Unicode character database: white space is
    neither cased nor case-ignorable. *)
Definition space_is_uncased (is_cased is_case_ignorable : codepoint -> bool) :=
  forall c, py_isspace c = true ->
            is_cased c = false /\ is_case_ignorable c = false.

(** ** Facts about the character classes *)

Ltac bool_to_prop_in H :=
  repeat first
    [ rewrite orb_true_iff in H | rewrite andb_true_iff in H
    | rewrite orb_false_iff in H | rewrite andb_false_iff in H
    | rewrite negb_true_iff in H | rewrite negb_false_iff in H
    | rewrite N.leb_le in H | rewrite N.leb_gt in H
    | rewrite N.ltb_lt in H | rewrite N.ltb_ge in H
    | rewrite N.eqb_eq in H | rewrite N.eqb_neq in H ].

Ltac bool_to_prop :=
  repeat match goal with
    | H : _ = true |- _ => progress bool_to_prop_in H
    | H : _ = false |- _ => progress bool_to_prop_in H
    end.

Lemma is_punct_ranges (c : codepoint) :
  is_punct c = true <->
  (33 <= c <= 47 \/ 58 <= c <= 64 \/ 91 <= c <= 96 \/ 123 <= c <= 126)%N.
Proof.
  unfold is_punct, char_in, p. cbn [codes list_ascii_of_string map app existsb].
  cbv [N_of_ascii N_of_digits]. cbn.
  repeat rewrite orb_true_iff. repeat rewrite N.eqb_eq.
  lia.
Qed.

Lemma punct_is_ascii (c : codepoint) : is_punct c = true -> is_ascii c = true.
Proof.
  intro H. apply is_punct_ranges in H. apply N.ltb_lt. lia.
Qed.

Lemma punct_not_space (c : codepoint) :
  is_punct c = true -> py_isspace c = false.
Proof.
  intro H. apply is_punct_ranges in H.
  destruct (py_isspace c) eqn:E; [exfalso | reflexivity].
  unfold py_isspace in E. bool_to_prop. lia.
Qed.

Lemma space_not_punct (c : codepoint) :
  py_isspace c = true -> is_punct c = false.
Proof.
  intro H. destruct (is_punct c) eqn:E; [ | reflexivity].
  apply punct_not_space in E. congruence.
Qed.

Lemma ascii_lower_fixes_uncased (c : codepoint) :
  is_ascii_upper c = false -> ascii_lower c = c.
Proof.
  unfold ascii_lower. intros ->. reflexivity.
Qed.

Lemma space_not_capital (c : codepoint) :
  py_isspace c = true -> is_ascii_upper c = false.
Proof.
  intro H. destruct (is_ascii_upper c) eqn:E; [exfalso | reflexivity].
  unfold py_isspace in H. unfold is_ascii_upper in E. bool_to_prop. lia.
Qed.

Lemma punct_not_capital (c : codepoint) :
  is_punct c = true -> is_ascii_upper c = false.
Proof.
  intro H. apply is_punct_ranges in H.
  destruct (is_ascii_upper c) eqn:E; [exfalso | reflexivity].
  unfold is_ascii_upper in E. bool_to_prop. lia.
Qed.

Lemma ascii_lower_not_capital (c : codepoint) :
  is_ascii_upper (ascii_lower c) = false.
Proof.
  unfold ascii_lower. destruct (is_ascii_upper c) eqn:E; [ | exact E].
  unfold is_ascii_upper in *. bool_to_prop.
  apply andb_false_iff. right. apply N.leb_gt. lia.
Qed.

Lemma ascii_lower_space (c : codepoint) :
  py_isspace (ascii_lower c) = py_isspace c.
Proof.
  unfold ascii_lower. destruct (is_ascii_upper c) eqn:E; [ | reflexivity].
  unfold is_ascii_upper in E. bool_to_prop.
  assert (Hc : py_isspace c = false).
  { destruct (py_isspace c) eqn:F; [exfalso | reflexivity].
    unfold py_isspace in F. bool_to_prop. lia. }
  rewrite Hc.
  destruct (py_isspace (c + 32)%N) eqn:F; [exfalso | reflexivity].
  unfold py_isspace in F. bool_to_prop. lia.
Qed.

Lemma pystr_eqb_eq (a b : pystr) : pystr_eqb a b = true <-> a = b.
Proof.
  unfold pystr_eqb. destruct (list_eq_dec N.eq_dec a b); split;
    congruence.
Qed.

Lemma str_in_In (w : pystr) (word_list : list pystr) :
  str_in w word_list = true <-> In w word_list.
Proof.
  unfold str_in. rewrite existsb_exists. split.
  - intros (x & Hx & E). apply pystr_eqb_eq in E. now subst.
  - intro H. exists w. split; [exact H | now apply pystr_eqb_eq].
Qed.

(** ** Facts about [split] *)

Lemma flush_concat (cur : pystr) : concat (flush cur) = cur.
Proof.
  destruct cur; [reflexivity | ]. simpl. now rewrite app_nil_r.
Qed.

Lemma flush_length (cur : pystr) :
  length (flush cur) = match cur with [] => 0 | _ :: _ => 1 end.
Proof. now destruct cur. Qed.

Lemma split_from_concat (s cur : pystr) :
  concat (split_from cur s) = cur ++ filter (fun c => negb (py_isspace c)) s.
Proof.
  revert cur. induction s as [ | c rest IH]; intro cur; simpl.
  - now rewrite flush_concat, app_nil_r.
  - destruct (py_isspace c); simpl.
    + now rewrite concat_app, flush_concat, IH.
    + now rewrite IH, <- app_assoc.
Qed.

Lemma split_from_words (s cur w : pystr) :
  no_space cur = true -> In w (split_from cur s) ->
  w <> [] /\ no_space w = true.
Proof.
  revert cur. induction s as [ | c rest IH]; intros cur Hcur Hin; simpl in Hin.
  - destruct cur; simpl in Hin; [contradiction | ].
    destruct Hin as [<- | []]. split; [discriminate | exact Hcur].
  - destruct (py_isspace c) eqn:E.
    + apply in_app_or in Hin. destruct Hin as [Hin | Hin].
      * destruct cur; simpl in Hin; [contradiction | ].
        destruct Hin as [<- | []]. split; [discriminate | exact Hcur].
      * now apply (IH []).
    + apply (IH (cur ++ [c])); [ | exact Hin].
      unfold no_space in *. rewrite forallb_app, Hcur. simpl. now rewrite E.
Qed.

Lemma split_from_chars (s cur w : pystr) (c : codepoint) :
  In w (split_from cur s) -> In c w -> In c (cur ++ s).
Proof.
  revert cur. induction s as [ | d rest IH]; intros cur Hin Hc; simpl in Hin.
  - destruct cur; simpl in Hin; [contradiction | ].
    destruct Hin as [<- | []]. now rewrite app_nil_r.
  - destruct (py_isspace d).
    + apply in_app_or in Hin. destruct Hin as [Hin | Hin].
      * destruct cur; simpl in Hin; [contradiction | ].
        destruct Hin as [<- | []]. apply in_or_app. now left.
      * apply in_or_app. right. right. exact (IH [] Hin Hc).
    + specialize (IH (cur ++ [d]) Hin Hc).
      now rewrite <- app_assoc in IH.
Qed.

Lemma split_from_length (s cur : pystr) :
  length (split_from cur s) =
  match cur with
  | [] => word_starts false s
  | _ :: _ => 1 + word_starts true s
  end.
Proof.
  revert cur. induction s as [ | c rest IH]; intro cur; simpl.
  - now destruct cur.
  - destruct (py_isspace c).
    + rewrite length_app, flush_length, (IH []). now destruct cur.
    + rewrite IH. destruct cur; reflexivity.
Qed.

Lemma word_count_starts (s : pystr) : word_count s = word_starts false s.
Proof. unfold word_count, split. now rewrite split_from_length. Qed.

Lemma word_starts_app (w s : pystr) (b : bool) :
  no_space w = true ->
  word_starts b (w ++ s) =
  match w with
  | [] => word_starts b s
  | _ :: _ => (if b then 0 else 1) + word_starts true s
  end.
Proof.
  revert b. induction w as [ | c w IH]; intros b H; [reflexivity | ].
  simpl in H. apply andb_true_iff in H. destruct H as [Hc Hw].
  apply negb_true_iff in Hc. simpl. rewrite Hc.
  rewrite (IH true Hw). now destruct w.
Qed.

Lemma split_all_space (s : pystr) :
  forallb py_isspace s = true -> split s = [].
Proof.
  unfold split. induction s as [ | c rest IH]; intro H; [reflexivity | ].
  simpl in H. apply andb_true_iff in H. destruct H as [Hc Hrest].
  simpl. rewrite Hc. simpl. now apply IH.
Qed.

(** ** Facts about [lower] and [remove_punctuation] *)

Section LowerFacts.

Variable unicode_lower : codepoint -> list codepoint.
Variable is_cased : codepoint -> bool.
Variable is_case_ignorable : codepoint -> bool.

Local Abbreviation lower_ucs4 :=
  (lower_ucs4 unicode_lower is_cased is_case_ignorable).
Local Abbreviation lower_from :=
  (lower_from unicode_lower is_cased is_case_ignorable).
Local Abbreviation lower := (lower unicode_lower is_cased is_case_ignorable).

Lemma lower_ucs4_space (before after : pystr) (c : codepoint) :
  lower_keeps_space unicode_lower ->
  py_isspace c = true -> lower_ucs4 before c after = [c].
Proof.
  intros Hdb Hc. unfold lower_ucs4.
  destruct (N.eqb_spec c 931) as [-> | _]; [discriminate Hc | ].
  unfold to_lower_full. destruct (is_ascii c) eqn:A.
  - now rewrite ascii_lower_fixes_uncased by now apply space_not_capital.
  - now apply Hdb.
Qed.

Lemma lower_ucs4_punct (before after : pystr) (c : codepoint) :
  is_punct c = true -> lower_ucs4 before c after = [c].
Proof.
  intro Hc. unfold lower_ucs4.
  destruct (N.eqb_spec c 931) as [-> | _]; [discriminate Hc | ].
  unfold to_lower_full. rewrite (punct_is_ascii _ Hc).
  now rewrite ascii_lower_fixes_uncased by now apply punct_not_capital.
Qed.

Lemma lower_ucs4_no_space (before after : pystr) (c : codepoint) :
  lower_makes_no_space unicode_lower ->
  py_isspace c = false -> no_space (lower_ucs4 before c after) = true.
Proof.
  intros Hdb Hc. unfold lower_ucs4.
  destruct (N.eqb_spec c 931) as [-> | _].
  - unfold handle_capital_sigma. now destruct (final_sigma _ _ _ _).
  - unfold to_lower_full. destruct (is_ascii c) eqn:A.
    + unfold no_space. simpl. now rewrite ascii_lower_space, Hc.
    + now apply Hdb.
Qed.

Lemma lower_ucs4_no_capital (before after : pystr) (c : codepoint) :
  lower_makes_no_capital unicode_lower ->
  no_capital (lower_ucs4 before c after) = true.
Proof.
  intro Hdb. unfold lower_ucs4.
  destruct (N.eqb_spec c 931) as [-> | _].
  - unfold handle_capital_sigma. now destruct (final_sigma _ _ _ _).
  - unfold to_lower_full. destruct (is_ascii c) eqn:A.
    + unfold no_capital. simpl. now rewrite ascii_lower_not_capital.
    + now apply Hdb.
Qed.

Lemma lower_from_no_capital (s before : pystr) :
  lower_makes_no_capital unicode_lower ->
  no_capital (lower_from before s) = true.
Proof.
  intro Hdb. revert before.
  induction s as [ | c rest IH]; intro seen; [reflexivity | ].
  simpl. pose proof (lower_ucs4_no_capital seen rest c Hdb) as Hc.
  specialize (IH (c :: seen)). unfold no_capital in *.
  now rewrite forallb_app, Hc, IH.
Qed.

(** A text of punctuation and white space only is its own lower case. *)
Lemma lower_from_uncased (s before : pystr) :
  lower_keeps_space unicode_lower ->
  forallb (fun c => is_punct c || py_isspace c) s = true ->
  lower_from before s = s.
Proof.
  intro Hdb. revert before.
  induction s as [ | c rest IH]; intros seen H; [reflexivity | ].
  simpl in H. apply andb_true_iff in H. destruct H as [Hc Hrest].
  simpl. rewrite (IH _ Hrest). apply orb_true_iff in Hc.
  destruct Hc as [Hc | Hc].
  - now rewrite lower_ucs4_punct.
  - now rewrite lower_ucs4_space.
Qed.

Lemma remove_punctuation_app (a b : pystr) :
  remove_punctuation (a ++ b) = remove_punctuation a ++ remove_punctuation b.
Proof. apply filter_app. Qed.

Lemma remove_punctuation_single (c : codepoint) :
  is_punct c = false -> remove_punctuation [c] = [c].
Proof.
  unfold remove_punctuation, is_punct. intro H. cbn [filter].
  now rewrite H.
Qed.

Lemma remove_punctuation_no_punct (s : pystr) :
  no_punct (remove_punctuation s) = true.
Proof.
  unfold no_punct, remove_punctuation, is_punct.
  apply (forallb_filter (fun ch => negb (char_in ch p))).
Qed.

Lemma remove_punctuation_no_space (s : pystr) :
  no_space s = true -> no_space (remove_punctuation s) = true.
Proof.
  unfold no_space, remove_punctuation. rewrite !forallb_forall.
  intros H c Hc. apply filter_In in Hc. now apply H.
Qed.

Lemma remove_punctuation_space (s : pystr) :
  forallb (fun c => is_punct c || py_isspace c) s = true ->
  forallb py_isspace (remove_punctuation s) = true.
Proof.
  unfold remove_punctuation. rewrite !forallb_forall.
  intros H c Hc. apply filter_In in Hc. destruct Hc as [Hc Hp].
  specialize (H c Hc). unfold is_punct in H.
  apply negb_true_iff in Hp. now rewrite Hp in H.
Qed.

(** Lower-casing and deleting punctuation never start a word where the raw
    text has none: the words of the result, counted with the one being
    read, are at most those of the raw text. *)
Lemma word_starts_lower (s before : pystr) (b b' : bool) :
  lower_keeps_space unicode_lower ->
  lower_makes_no_space unicode_lower ->
  (b' = true -> b = true) ->
  word_starts b' (remove_punctuation (lower_from before s))
    + (if b' then 1 else 0)
  <= word_starts b s + (if b then 1 else 0).
Proof.
  intros Hsp Hns. revert before b b'.
  induction s as [ | c rest IH]; intros seen b b' Hb.
  - simpl. destruct b'; [rewrite Hb by reflexivity | destruct b]; lia.
  - cbn [lower_from]. rewrite remove_punctuation_app.
    destruct (py_isspace c) eqn:E.
    + rewrite (lower_ucs4_space seen rest c Hsp E).
      rewrite (remove_punctuation_single c (space_not_punct c E)).
      cbn [app word_starts]. rewrite E.
      specialize (IH (c :: seen) false false (fun H => H)).
      destruct b'; [rewrite Hb by reflexivity | destruct b]; lia.
    + rewrite word_starts_app
        by (apply remove_punctuation_no_space;
            now apply lower_ucs4_no_space).
      cbn [word_starts]. rewrite E.
      destruct (remove_punctuation (lower_ucs4 seen c rest)).
      * specialize (IH (c :: seen) true b' (fun _ => eq_refl)).
        destruct b, b'; lia.
      * specialize (IH (c :: seen) true true (fun _ => eq_refl)).
        destruct b, b'; lia.
Qed.

End LowerFacts.

(** ** Facts about counting *)

Lemma filter_filter {A : Type} (f g : A -> bool) (l : list A) :
  filter f (filter g l) = filter (fun x => g x && f x) l.
Proof.
  induction l as [ | x l IH]; [reflexivity | ].
  simpl. destruct (g x); simpl; [ | exact IH].
  destruct (f x); now rewrite IH.
Qed.

Lemma filter_length_mono {A : Type} (f g : A -> bool) (l : list A) :
  (forall x, In x l -> f x = true -> g x = true) ->
  length (filter f l) <= length (filter g l).
Proof.
  induction l as [ | x l IH]; intro H; [reflexivity | ].
  assert (Hl : length (filter f l) <= length (filter g l)).
  { apply IH. intros y Hy. apply H. now right. }
  simpl. destruct (f x) eqn:F.
  - rewrite (H x (or_introl eq_refl) F). simpl. lia.
  - destruct (g x); simpl; lia.
Qed.

Lemma filter_length_bound {A : Type} (f : A -> bool) (l : list A) :
  length (filter f l) <= length l.
Proof.
  induction l as [ | x l IH]; [reflexivity | ].
  simpl. destruct (f x); simpl; lia.
Qed.

Lemma member_occurrences_filter (tokens wordSet : list pystr) :
  length (filter (fun w => str_in w wordSet) tokens)
  = member_occurrences tokens wordSet.
Proof.
  induction tokens as [ | w rest IH]; [reflexivity | ].
  simpl. destruct (in_dec (list_eq_dec N.eq_dec) w wordSet) as [Hin | Hout].
  - apply str_in_In in Hin. rewrite Hin. simpl. now rewrite IH.
  - destruct (str_in w wordSet) eqn:E.
    + apply str_in_In in E. contradiction.
    + exact IH.
Qed.

Lemma score_tokens_from (lexicon : list (pystr * R)) (tokens : list pystr)
      (start : R) :
  fold_left (fun total token => (total + weight_of lexicon token)%R)
            tokens start
  = (start + score_tokens lexicon tokens)%R.
Proof.
  unfold score_tokens. revert start.
  induction tokens as [ | w rest IH]; intro start; simpl.
  - lra.
  - rewrite IH. rewrite (IH (0 + weight_of lexicon w)%R). lra.
Qed.

Lemma score_tokens_app (lexicon : list (pystr * R)) (u v : list pystr) :
  score_tokens lexicon (u ++ v)
  = (score_tokens lexicon u + score_tokens lexicon v)%R.
Proof.
  unfold score_tokens at 1. rewrite fold_left_app.
  fold (score_tokens lexicon u). apply score_tokens_from.
Qed.

Lemma score_tokens_sum (lexicon : list (pystr * R)) (tokens : list pystr) :
  score_tokens lexicon tokens
  = fold_right Rplus 0%R (map (weight_of lexicon) tokens).
Proof.
  induction tokens as [ | w rest IH]; [reflexivity | ].
  unfold score_tokens. simpl. rewrite score_tokens_from, IH. lra.
Qed.

(** ** The sample table satisfies the three facts *)

Lemma sample_lower_keeps_space : lower_keeps_space sample_lower.
Proof.
  intros c _ Hc. unfold sample_lower.
  destruct (N.eqb_spec c 304) as [-> | _]; [discriminate Hc | ].
  destruct (N.eqb_spec c 8490) as [-> | _]; [discriminate Hc | ].
  unfold py_isspace in Hc.
  destruct ((192 <=? c) && (c <=? 222) && negb (c =? 215))%N eqn:E;
    [exfalso; bool_to_prop; lia | ].
  destruct ((913 <=? c) && (c <=? 939) && negb (c =? 930))%N eqn:F;
    [exfalso; bool_to_prop; lia | reflexivity].
Qed.

Lemma shifted_capital_no_space (c : codepoint) :
  (192 <= c <= 222 \/ 913 <= c <= 939)%N ->
  no_space [(c + 32)%N] = true.
Proof.
  intro H. unfold no_space. simpl. rewrite andb_true_r. apply negb_true_iff.
  destruct (py_isspace (c + 32)%N) eqn:F; [exfalso | reflexivity].
  unfold py_isspace in F. bool_to_prop. lia.
Qed.

Lemma beyond_ascii_no_capital (c : codepoint) :
  (128 <= c)%N -> no_capital [c] = true.
Proof.
  intro H. unfold no_capital. simpl. rewrite andb_true_r.
  apply negb_true_iff. unfold is_ascii_upper. apply andb_false_iff. right.
  apply N.leb_gt. lia.
Qed.

Lemma sample_lower_makes_no_space : lower_makes_no_space sample_lower.
Proof.
  intros c _ Hc. unfold sample_lower.
  destruct (N.eqb_spec c 304) as [-> | _]; [reflexivity | ].
  destruct (N.eqb_spec c 8490) as [-> | _]; [reflexivity | ].
  destruct ((192 <=? c) && (c <=? 222) && negb (c =? 215))%N eqn:E;
    [apply shifted_capital_no_space; bool_to_prop; lia | ].
  destruct ((913 <=? c) && (c <=? 939) && negb (c =? 930))%N eqn:F;
    [apply shifted_capital_no_space; bool_to_prop; lia | ].
  unfold no_space. simpl. now rewrite Hc.
Qed.

Lemma sample_lower_makes_no_capital : lower_makes_no_capital sample_lower.
Proof.
  intros c Hc. unfold sample_lower.
  destruct (N.eqb_spec c 304) as [-> | _]; [reflexivity | ].
  destruct (N.eqb_spec c 8490) as [-> | _]; [reflexivity | ].
  unfold is_ascii in Hc. apply N.ltb_ge in Hc.
  destruct ((192 <=? c) && (c <=? 222) && negb (c =? 215))%N;
    [apply beyond_ascii_no_capital; lia | ].
  destruct ((913 <=? c) && (c <=? 939) && negb (c =? 930))%N;
    apply beyond_ascii_no_capital; lia.
Qed.

(** ** The tokenizer *)

Section Tokenizer.

Variable unicode_lower : codepoint -> list codepoint.
Variable is_cased : codepoint -> bool.
Variable is_case_ignorable : codepoint -> bool.

Local Abbreviation lower_from :=
  (lower_from unicode_lower is_cased is_case_ignorable).
Local Abbreviation lower := (lower unicode_lower is_cased is_case_ignorable).
Local Abbreviation text_to_words :=
  (text_to_words unicode_lower is_cased is_case_ignorable).

Lemma lower_from_ascii (s seen : pystr) :
  forallb is_ascii s = true -> lower_from seen s = map ascii_lower s.
Proof.
  revert seen. induction s as [ | c rest IH]; intros seen H; [reflexivity | ].
  simpl in H. apply andb_true_iff in H. destruct H as [Hc Hrest].
  cbn [lower_from map]. rewrite (IH _ Hrest). unfold lower_ucs4.
  destruct (N.eqb_spec c 931) as [-> | _]; [discriminate Hc | ].
  unfold to_lower_full. now rewrite Hc.
Qed.

(** C2: [text_to_words] lower-cases the whole text, then deletes the
    characters of [p], the 32 ASCII punctuation characters, then splits on
    white space.  An ASCII text is lower-cased letter by letter.  The
    characters are deleted, not turned into separators: the tokens put end
    to end are the lower-cased text without its punctuation and white
    space, so [Don't stop-now] gives [dont] and [stopnow].  The sentence of
    the notebook gives its eight words. *)
Theorem text_to_words_lowers_deletes_splits :
  (forall text,
      text_to_words text
      = split (filter (fun ch => negb (is_punct ch)) (lower text)))
  /\ p = [33; 34; 35; 36; 37; 38; 39; 40; 41; 42; 43; 44; 45; 46; 47;
          58; 59; 60; 61; 62; 63; 64; 91; 92; 93; 94; 95; 96;
          123; 124; 125; 126]%N
  /\ (forall text,
         forallb is_ascii text = true -> lower text = map ascii_lower text)
  /\ (forall text,
         concat (text_to_words text)
         = filter (fun ch => negb (is_punct ch) && negb (py_isspace ch))
                  (lower text))
  /\ text_to_words (codes "Don't stop-now") = [codes "dont"; codes "stopnow"]
  /\ text_to_words
       (codes "Make this lower case and remove! All? Punctuation.")
     = [codes "make"; codes "this"; codes "lower"; codes "case";
        codes "and"; codes "remove"; codes "all"; codes "punctuation"].
Proof.
  split; [reflexivity | ].
  split; [reflexivity | ].
  split; [intros text H; now apply lower_from_ascii | ].
  split; [ | split; reflexivity].
  intro text. unfold text_to_words, split.
  rewrite split_from_concat. simpl. unfold remove_punctuation.
  now rewrite filter_filter.
Qed.

(** C5: a text made only of punctuation characters and white space, the
    empty text included, has no words. *)
Theorem text_to_words_punctuation_and_space (text : pystr) :
  lower_keeps_space unicode_lower ->
  forallb (fun c => is_punct c || py_isspace c) text = true ->
  text_to_words text = [].
Proof.
  intros Hdb H. unfold text_to_words, lower.
  rewrite (lower_from_uncased unicode_lower is_cased is_case_ignorable
             text [] Hdb H).
  apply split_all_space. now apply remove_punctuation_space.
Qed.

(** C8: every token of [text_to_words] is non-empty and contains no white
    space, no punctuation character and no ASCII capital. *)
Theorem text_to_words_tokens_clean (text w : pystr) :
  lower_makes_no_capital unicode_lower ->
  In w (text_to_words text) ->
  w <> [] /\ no_space w = true /\ no_punct w = true
  /\ no_capital w = true.
Proof.
  intros Hdb Hin. unfold text_to_words, split in Hin.
  destruct (split_from_words _ [] w eq_refl Hin) as [Hne Hsp].
  repeat split; [exact Hne | exact Hsp | | ].
  - unfold no_punct. apply forallb_forall. intros c Hc.
    pose proof (split_from_chars _ [] w c Hin Hc) as Hc'. simpl in Hc'.
    pose proof (remove_punctuation_no_punct (lower text)) as Hp.
    unfold no_punct in Hp. rewrite forallb_forall in Hp. now apply Hp.
  - unfold no_capital. apply forallb_forall. intros c Hc.
    pose proof (split_from_chars _ [] w c Hin Hc) as Hc'. simpl in Hc'.
    unfold remove_punctuation in Hc'. apply filter_In in Hc'.
    destruct Hc' as [Hc' _].
    pose proof (lower_from_no_capital unicode_lower is_cased
                  is_case_ignorable text [] Hdb) as Hl.
    unfold no_capital in Hl. rewrite forallb_forall in Hl. now apply Hl.
Qed.

(** C10: [text_to_words] returns at most [word_count] tokens: deleting
    characters can empty a chunk of the raw text, never cut one in two. *)
Theorem text_to_words_at_most_word_count (t : pystr) :
  lower_keeps_space unicode_lower ->
  lower_makes_no_space unicode_lower ->
  length (text_to_words t) <= word_count t.
Proof.
  intros Hsp Hns. rewrite word_count_starts.
  unfold text_to_words, split. rewrite split_from_length.
  pose proof (word_starts_lower unicode_lower is_cased is_case_ignorable t []
                false false Hsp Hns (fun H => H)) as H.
  fold (lower t) in H. simpl in H. lia.
Qed.

End Tokenizer.

(** ** The membership counter *)

Section MembershipCounter.

Variable unicode_lower : codepoint -> list codepoint.
Variable is_cased : codepoint -> bool.
Variable is_case_ignorable : codepoint -> bool.

Local Abbreviation text_to_words :=
  (text_to_words unicode_lower is_cased is_case_ignorable).
Local Abbreviation count_occurences :=
  (count_occurences unicode_lower is_cased is_case_ignorable).
Local Abbreviation py_count_occurences :=
  (py_count_occurences unicode_lower is_cased is_case_ignorable).

Lemma count_occurences_mono (t : pystr) (A B : list pystr) :
  (forall w, In w A -> In w B) ->
  count_occurences t A <= count_occurences t B.
Proof.
  intro H. unfold count_occurences. apply filter_length_mono.
  intros w _ Hw. apply str_in_In. apply H. now apply str_in_In.
Qed.

Lemma count_occurences_ext (t : pystr) (A B : list pystr) :
  (forall w, In w A <-> In w B) ->
  count_occurences t A = count_occurences t B.
Proof.
  intro H. apply Nat.le_antisymm; apply count_occurences_mono;
    intros w Hw; now apply H.
Qed.

(** C1: [count_occurences] returns the number of tokens of the text that
    are members of the word set, a token counting once for each of its
    occurrences; membership is equality of strings, so [helps] and [hers]
    do not match [he]; the text is lower-cased before matching, so [He]
    matches [he]. *)
Theorem count_occurences_counts_member_tokens :
  (forall text wordSet,
      count_occurences text wordSet
      = member_occurrences (text_to_words text) wordSet)
  /\ count_occurences (codes "He went to the store.")
                      [codes "he"; codes "him"] = 1
  /\ count_occurences (codes "He saw him, and he left.")
                      [codes "he"; codes "him"] = 3
  /\ count_occurences (codes "He helps hers.")
                      [codes "he"; codes "him"] = 1.
Proof.
  split; [ | repeat split; reflexivity].
  intros text wordSet. apply member_occurrences_filter.
Qed.

(** C4: the count does not decrease under union of word sets: the count
    for a union of [A] and [B] is at least the larger of the counts for
    [A] and for [B]. *)
Theorem count_occurences_union_monotone (t : pystr) (A B U : list pystr) :
  (forall w, In w U <-> In w A \/ In w B) ->
  Nat.max (count_occurences t A) (count_occurences t B)
  <= count_occurences t U.
Proof.
  intro H. apply Nat.max_lub; apply count_occurences_mono;
    intros w Hw; apply H; tauto.
Qed.

(** C6: on a string [count_occurences] returns and does not raise; with
    an empty word set the count is 0 for every text, and for the empty
    text it is 0 for every word set. *)
Theorem count_occurences_returns_zero_on_empty :
  (forall text word_list,
      py_count_occurences (PyStr text) word_list
      = Ok (count_occurences text word_list))
  /\ (forall text, count_occurences text [] = 0)
  /\ (forall word_list, count_occurences [] word_list = 0).
Proof.
  split; [reflexivity | ]. split; [ | reflexivity].
  intro text. unfold count_occurences. simpl.
  now rewrite (filter_false (text_to_words text)).
Qed.

(** C7: the word list acts as a set: two word lists with the same terms
    give the same count, so a permuted list, a list with its duplicates
    removed and a list repeated twice all count as the list itself. *)
Theorem count_occurences_word_list_as_set (t : pystr) (L : list pystr) :
  (forall L', (forall w, In w L <-> In w L') ->
              count_occurences t L = count_occurences t L')
  /\ (forall L', Permutation L L' ->
                 count_occurences t L = count_occurences t L')
  /\ count_occurences t (nodup (list_eq_dec N.eq_dec) L)
     = count_occurences t L
  /\ count_occurences t (L ++ L) = count_occurences t L.
Proof.
  split; [intros L' H; now apply count_occurences_ext | ].
  split; [ | split].
  - intros L' H. apply count_occurences_ext. intro w. split; intro Hw.
    + exact (Permutation_in w H Hw).
    + exact (Permutation_in w (Permutation_sym H) Hw).
  - apply count_occurences_ext. intro w. apply nodup_In.
  - apply count_occurences_ext. intro w. rewrite in_app_iff. tauto.
Qed.

(** C9: the count lies between 0 and the number of tokens of the text. *)
Theorem count_occurences_bounded (text : pystr) (word_list : list pystr) :
  0 <= count_occurences text word_list
  /\ count_occurences text word_list <= length (text_to_words text).
Proof.
  split; [apply Nat.le_0_l | ].
  unfold count_occurences. apply filter_length_bound.
Qed.

End MembershipCounter.

(** ** The valence scorer *)

Section ValenceScorer.

Variable unicode_lower : codepoint -> list codepoint.
Variable is_cased : codepoint -> bool.
Variable is_case_ignorable : codepoint -> bool.

Local Abbreviation text_to_words :=
  (text_to_words unicode_lower is_cased is_case_ignorable).
Local Abbreviation score :=
  (score unicode_lower is_cased is_case_ignorable).

(** C3: the score is the sum over the tokens of their weights, a token
    absent from the lexicon weighing 0, and it is additive: when the
    tokens of [a], a space and [b] are the tokens of [a] followed by those
    of [b], the score of the joined text is the sum of the two scores. *)
Theorem score_additive (a b : pystr) (L : Lexicon) :
  (text_to_words (a ++ codes " " ++ b)
   = text_to_words a ++ text_to_words b ->
   score (a ++ codes " " ++ b) L = (score a L + score b L)%R)
  /\ score a L
     = fold_right Rplus 0%R (map (weight_of L) (text_to_words a))
  /\ (forall token, lookup L token = None -> weight_of L token = 0%R).
Proof.
  split; [ | split].
  - intro H. unfold score. rewrite H. apply score_tokens_app.
  - apply score_tokens_sum.
  - intros token E. unfold weight_of. now rewrite E.
Qed.

End ValenceScorer.

(** ** The functions at work on the sample table *)

Example word_count_seven :
  word_count (codes "This sentence has seven words in it.") = 7.
Proof. reflexivity. Qed.

Example word_count_erased_chunks :
  word_count (codes "- - a") = 3
  /\ sample_text_to_words (codes "- - a") = [codes "a"].
Proof. split; reflexivity. Qed.

Example text_to_words_beyond_ascii :
  sample_text_to_words [913; 931; 32; 931; 304; 8490; 160; 201; 46]%N
  = [[945; 962]; [963; 105; 775; 107]; [233]]%N.
Proof. reflexivity. Qed.

Example word_list_is_not_lowered :
  sample_count_occurences (codes "He went.") [codes "He"] = 0.
Proof. reflexivity. Qed.

Example none_raises (word_list : list pystr) :
  py_count_occurences sample_lower sample_cased sample_case_ignorable
                      PyNone word_list
  = Raise AttributeError.
Proof. reflexivity. Qed.

Example score_bad_day : sample_score (codes "Bad day.") sample_lexicon = (-3)%R.
Proof.
  unfold sample_score, score.
  replace (text_to_words _ _ _ _) with [codes "bad"; codes "day"]
    by (vm_compute; reflexivity).
  unfold score_tokens, weight_of. cbn. lra.
Qed.

Example score_horrible_bad_day :
  sample_score (codes "Horrible, bad day.") sample_lexicon = (-6)%R.
Proof.
  unfold sample_score, score.
  replace (text_to_words _ _ _ _)
    with [codes "horrible"; codes "bad"; codes "day"]
    by (vm_compute; reflexivity).
  unfold score_tokens, weight_of. cbn. lra.
Qed.

Example score_empty : sample_score [] sample_lexicon = 0%R.
Proof. reflexivity. Qed.

(** ** The statements at concrete inputs *)

Lemma text_to_words_lowers_deletes_splits_witness :
  forallb is_ascii (codes "Bad Day.") = true
  /\ lower sample_lower sample_cased sample_case_ignorable (codes "Bad Day.")
     = map ascii_lower (codes "Bad Day.").
Proof.
  split; [reflexivity | ].
  apply (proj1 (proj2 (proj2 (text_to_words_lowers_deletes_splits
                                sample_lower sample_cased
                                sample_case_ignorable)))).
  reflexivity.
Defined.

Lemma score_additive_witness :
  sample_text_to_words (codes "Horrible," ++ codes " " ++ codes "bad day.")
  = sample_text_to_words (codes "Horrible,")
    ++ sample_text_to_words (codes "bad day.")
  /\ sample_score (codes "Horrible," ++ codes " " ++ codes "bad day.")
                  sample_lexicon
     = (sample_score (codes "Horrible,") sample_lexicon
        + sample_score (codes "bad day.") sample_lexicon)%R.
Proof.
  split; [reflexivity | ].
  apply (proj1 (score_additive sample_lower sample_cased
                               sample_case_ignorable
                               (codes "Horrible,") (codes "bad day.")
                               sample_lexicon)).
  reflexivity.
Defined.

Lemma count_occurences_union_monotone_witness :
  Nat.max (sample_count_occurences (codes "He saw him.") [codes "he"])
          (sample_count_occurences (codes "He saw him.") [codes "him"])
  <= sample_count_occurences (codes "He saw him.") [codes "him"; codes "he"].
Proof.
  apply (count_occurences_union_monotone
           sample_lower sample_cased sample_case_ignorable
           (codes "He saw him.") [codes "he"] [codes "him"]
           [codes "him"; codes "he"]).
  intro w. simpl. tauto.
Defined.

Lemma text_to_words_punctuation_and_space_witness :
  forallb (fun c => is_punct c || py_isspace c)
          [32; 46; 160; 33; 9; 8195; 63]%N = true
  /\ sample_text_to_words [32; 46; 160; 33; 9; 8195; 63]%N = [].
Proof.
  split; [reflexivity | ].
  apply (text_to_words_punctuation_and_space
           sample_lower sample_cased sample_case_ignorable
           [32; 46; 160; 33; 9; 8195; 63]%N).
  - exact sample_lower_keeps_space.
  - reflexivity.
Defined.

Lemma count_occurences_word_list_as_set_witness :
  sample_count_occurences (codes "He saw him.") [codes "he"; codes "him"]
  = sample_count_occurences (codes "He saw him.")
                            [codes "him"; codes "he"; codes "him"]
  /\ sample_count_occurences (codes "He saw him.") [codes "he"; codes "him"]
     = sample_count_occurences (codes "He saw him.") [codes "him"; codes "he"].
Proof.
  pose proof (count_occurences_word_list_as_set
                sample_lower sample_cased sample_case_ignorable
                (codes "He saw him.") [codes "he"; codes "him"])
    as [Hset [Hperm _]].
  split.
  - apply Hset. intro w. simpl. tauto.
  - apply Hperm. apply perm_swap.
Defined.

Lemma text_to_words_tokens_clean_witness :
  In (codes "world") (sample_text_to_words (codes "Hello, World!"))
  /\ codes "world" <> []
  /\ no_space (codes "world") = true
  /\ no_punct (codes "world") = true
  /\ no_capital (codes "world") = true.
Proof.
  assert (Hin : In (codes "world")
                   (sample_text_to_words (codes "Hello, World!"))).
  { right. left. reflexivity. }
  split; [exact Hin | ].
  exact (text_to_words_tokens_clean
           sample_lower sample_cased sample_case_ignorable
           (codes "Hello, World!") (codes "world")
           sample_lower_makes_no_capital Hin).
Defined.

Lemma text_to_words_at_most_word_count_witness :
  length (sample_text_to_words (codes "- - a")) <= word_count (codes "- - a").
Proof.
  apply (text_to_words_at_most_word_count
           sample_lower sample_cased sample_case_ignorable (codes "- - a")).
  - exact sample_lower_keeps_space.
  - exact sample_lower_makes_no_space.
Defined.

(** ** More about [word_count] *)

Lemma word_starts_flag (s : pystr) :
  word_starts true s <= word_starts false s <= 1 + word_starts true s.
Proof.
  destruct s as [ | c rest]; simpl; [lia | ].
  destruct (py_isspace c); lia.
Qed.

Lemma word_starts_zero (s : pystr) (b : bool) :
  forallb py_isspace s = true -> word_starts b s = 0.
Proof.
  revert b. induction s as [ | c rest IH]; intros b H; [reflexivity | ].
  simpl in H. apply andb_true_iff in H. destruct H as [Hc Hrest].
  simpl. rewrite Hc. now apply IH.
Qed.

Lemma word_starts_concat (a b : pystr) (f : bool) :
  word_starts f a + word_starts true b <= word_starts f (a ++ b)
  /\ word_starts f (a ++ b) <= word_starts f a + word_starts false b.
Proof.
  revert f. induction a as [ | c rest IH]; intro f; simpl.
  - pose proof (word_starts_flag b). destruct b as [ | d b']; simpl in *.
    + lia.
    + destruct (py_isspace d), f; lia.
  - destruct (py_isspace c).
    + apply IH.
    + specialize (IH true). lia.
Qed.

Lemma word_starts_after_space (a b : pystr) (c : codepoint) (f : bool) :
  py_isspace c = true ->
  word_starts f (a ++ c :: b) = word_starts f a + word_starts false b.
Proof.
  intro Hc. revert f. induction a as [ | d rest IH]; intro f; simpl.
  - now rewrite Hc.
  - destruct (py_isspace d); rewrite IH; lia.
Qed.

Lemma word_starts_length (s : pystr) :
  2 * word_starts true s <= length s
  /\ 2 * word_starts false s <= 1 + length s.
Proof.
  induction s as [ | c rest [IHt IHf]]; simpl; [lia | ].
  destruct (py_isspace c); lia.
Qed.

(** X1: [word_count] is 0 exactly on the texts made of white space only,
    the empty text among them. *)
Theorem word_count_zero_iff_blank (s : pystr) :
  word_count s = 0 <-> forallb py_isspace s = true.
Proof.
  rewrite word_count_starts. split; [ | apply word_starts_zero].
  induction s as [ | c rest IH]; [reflexivity | ].
  simpl. destruct (py_isspace c); [exact IH | ].
  intro H. lia.
Qed.

(** X2: across a white-space character the word counts add up. *)
Theorem word_count_across_space (a b : pystr) (c : codepoint) :
  py_isspace c = true ->
  word_count (a ++ c :: b) = word_count a + word_count b.
Proof.
  intro Hc. rewrite !word_count_starts. now apply word_starts_after_space.
Qed.

(** X3: gluing two texts with nothing between them merges at most the last
    word of the first with the first word of the second: the count of the
    whole is the sum of the counts or one less. *)
Theorem word_count_concat (a b : pystr) :
  word_count a + word_count b <= 1 + word_count (a ++ b)
  /\ word_count (a ++ b) <= word_count a + word_count b.
Proof.
  rewrite !word_count_starts.
  pose proof (word_starts_concat a b false) as [Hlow Hup].
  pose proof (word_starts_flag b). lia.
Qed.

(** X4: words need a character each and a separator between them: a text
    of [n] characters has at most [(n + 1) / 2] words. *)
Theorem word_count_at_most_half_length (s : pystr) :
  2 * word_count s <= 1 + length s.
Proof.
  rewrite word_count_starts. apply word_starts_length.
Qed.

(** ** More about [split] *)

Lemma split_from_word (w s cur : pystr) :
  no_space w = true -> split_from cur (w ++ s) = split_from (cur ++ w) s.
Proof.
  revert cur. induction w as [ | c rest IH]; intros cur H; simpl.
  - now rewrite app_nil_r.
  - simpl in H. apply andb_true_iff in H. destruct H as [Hc Hrest].
    apply negb_true_iff in Hc. rewrite Hc, (IH _ Hrest).
    now rewrite <- app_assoc.
Qed.

Lemma split_from_across_space (x y cur : pystr) (c : codepoint) :
  py_isspace c = true ->
  split_from cur (x ++ c :: y) = split_from cur x ++ split y.
Proof.
  intro Hc. revert cur. induction x as [ | d rest IH]; intro cur; simpl.
  - now rewrite Hc.
  - destruct (py_isspace d).
    + now rewrite IH, app_assoc.
    + apply IH.
Qed.

(** X5: [split] undoes joining: words that are non-empty and free of white
    space, each followed by a white-space character, are split back into
    those words. *)
Theorem split_joined_words (ws : list pystr) (sep : codepoint) :
  py_isspace sep = true ->
  Forall (fun w => w <> [] /\ no_space w = true) ws ->
  split (concat (map (fun w => w ++ [sep]) ws)) = ws.
Proof.
  intros Hsep Hws. induction Hws as [ | w rest [Hne Hw] _ IH]; [reflexivity | ].
  simpl. unfold split. rewrite <- app_assoc, split_from_word by exact Hw.
  simpl. rewrite Hsep. fold (split (concat (map (fun w => w ++ [sep]) rest))).
  rewrite IH. now destruct w.
Qed.

(** ** The tokenizer across white space *)

Section AcrossSpace.

Variable unicode_lower : codepoint -> list codepoint.
Variable is_cased : codepoint -> bool.
Variable is_case_ignorable : codepoint -> bool.

Hypothesis keeps_space : lower_keeps_space unicode_lower.
Hypothesis uncased_space : space_is_uncased is_cased is_case_ignorable.

Local Abbreviation skip_case_ignorable :=
  (skip_case_ignorable is_case_ignorable).
Local Abbreviation final_sigma := (final_sigma is_cased is_case_ignorable).
Local Abbreviation lower_ucs4 :=
  (lower_ucs4 unicode_lower is_cased is_case_ignorable).
Local Abbreviation lower_from :=
  (lower_from unicode_lower is_cased is_case_ignorable).
Local Abbreviation lower := (lower unicode_lower is_cased is_case_ignorable).
Local Abbreviation text_to_words :=
  (text_to_words unicode_lower is_cased is_case_ignorable).
Local Abbreviation count_occurences :=
  (count_occurences unicode_lower is_cased is_case_ignorable).

Lemma skip_case_ignorable_space (l x : pystr) (c : codepoint) :
  py_isspace c = true ->
  skip_case_ignorable (l ++ c :: x)
  = match skip_case_ignorable l with
    | [] => c :: x
    | d :: r => d :: r ++ c :: x
    end.
Proof.
  intro Hc. destruct (uncased_space c Hc) as [_ Hi].
  induction l as [ | d rest IH]; simpl.
  - now rewrite Hi.
  - destruct (is_case_ignorable d); [exact IH | reflexivity].
Qed.

Lemma final_sigma_after_space (seen after x : pystr) (c : codepoint) :
  py_isspace c = true ->
  final_sigma seen (after ++ c :: x) = final_sigma seen after.
Proof.
  intro Hc. destruct (uncased_space c Hc) as [Hcased _].
  unfold final_sigma. rewrite (skip_case_ignorable_space after x c Hc).
  destruct (skip_case_ignorable seen); [reflexivity | ].
  destruct (skip_case_ignorable after); [now rewrite Hcased | reflexivity].
Qed.

Lemma final_sigma_before_space (seen after x : pystr) (c : codepoint) :
  py_isspace c = true ->
  final_sigma (seen ++ c :: x) after = final_sigma seen after.
Proof.
  intro Hc. destruct (uncased_space c Hc) as [Hcased _].
  unfold final_sigma. rewrite (skip_case_ignorable_space seen x c Hc).
  destruct (skip_case_ignorable seen); [now rewrite Hcased | reflexivity].
Qed.

Lemma lower_from_before_space (s seen x : pystr) (c : codepoint) :
  py_isspace c = true ->
  lower_from (seen ++ c :: x) s = lower_from seen s.
Proof.
  intro Hc. revert seen. induction s as [ | d rest IH]; intro seen;
    [reflexivity | ].
  cbn [lower_from].
  change (d :: seen ++ c :: x) with ((d :: seen) ++ c :: x).
  rewrite (IH (d :: seen)). f_equal.
  unfold lower_ucs4, handle_capital_sigma.
  now rewrite final_sigma_before_space.
Qed.

Lemma lower_from_across_space (a b seen : pystr) (c : codepoint) :
  py_isspace c = true ->
  lower_from seen (a ++ c :: b) = lower_from seen a ++ c :: lower b.
Proof.
  intro Hc. revert seen. induction a as [ | d rest IH]; intro seen.
  - cbn [app lower_from]. rewrite (lower_ucs4_space _ _ _ _ _ _ keeps_space Hc).
    unfold lower. now rewrite <- (lower_from_before_space b [] seen c Hc).
  - cbn [app lower_from]. rewrite (IH (d :: seen)), <- app_assoc. f_equal.
    unfold lower_ucs4, handle_capital_sigma.
    now rewrite final_sigma_after_space.
Qed.

Lemma text_to_words_across_space_tokens (a b : pystr) (c : codepoint) :
  py_isspace c = true ->
  text_to_words (a ++ c :: b) = text_to_words a ++ text_to_words b.
Proof.
  intro Hc. unfold text_to_words, lower.
  rewrite (lower_from_across_space a b [] c Hc).
  rewrite remove_punctuation_app.
  change (c :: lower b) with ([c] ++ lower b).
  rewrite remove_punctuation_app.
  rewrite (remove_punctuation_single c (space_not_punct c Hc)).
  unfold split. cbn [app]. now apply split_from_across_space.
Qed.

(** X6: a white-space character cuts the text for the tokenizer: the tokens
    of [a], the character and [b] are the tokens of [a] followed by those
    of [b]. *)
Theorem text_to_words_across_space (a b : pystr) (c : codepoint) :
  py_isspace c = true ->
  text_to_words (a ++ c :: b) = text_to_words a ++ text_to_words b.
Proof. apply text_to_words_across_space_tokens. Qed.

(** X7: across a white-space character the counts of [count_occurences]
    add up. *)
Theorem count_occurences_across_space (a b : pystr) (c : codepoint)
        (word_list : list pystr) :
  py_isspace c = true ->
  count_occurences (a ++ c :: b) word_list
  = count_occurences a word_list + count_occurences b word_list.
Proof.
  intro Hc. unfold count_occurences.
  fold (text_to_words (a ++ c :: b)) (text_to_words a) (text_to_words b).
  rewrite (text_to_words_across_space_tokens a b c Hc).
  now rewrite filter_app, length_app.
Qed.

End AcrossSpace.

(** ** More about the word list *)

Lemma str_in_app (w : pystr) (A B : list pystr) :
  str_in w (A ++ B) = str_in w A || str_in w B.
Proof. apply existsb_app. Qed.

Lemma str_in_common (w : pystr) (A B : list pystr) :
  str_in w (filter (fun x => str_in x B) A) = str_in w A && str_in w B.
Proof.
  apply eq_iff_eq_true. rewrite andb_true_iff, !str_in_In, filter_In.
  now rewrite str_in_In.
Qed.

Lemma tokens_in_or_out (tokens A B : list pystr) :
  length (filter (fun w => str_in w (A ++ B)) tokens)
  + length (filter (fun w => str_in w (filter (fun x => str_in x B) A)) tokens)
  = length (filter (fun w => str_in w A) tokens)
    + length (filter (fun w => str_in w B) tokens).
Proof.
  induction tokens as [ | w rest IH]; [reflexivity | ].
  simpl. rewrite str_in_app, str_in_common.
  destruct (str_in w A), (str_in w B); simpl; lia.
Qed.

Lemma no_common_terms (A B : list pystr) :
  (forall x, In x A -> ~ In x B) -> filter (fun x => str_in x B) A = [].
Proof.
  induction A as [ | x rest IH]; intro H; [reflexivity | ].
  simpl. destruct (str_in x B) eqn:Hx.
  - apply str_in_In in Hx. exfalso. exact (H x (or_introl eq_refl) Hx).
  - apply IH. intros y Hy. apply H. now right.
Qed.

Section WordListFacts.

Variable unicode_lower : codepoint -> list codepoint.
Variable is_cased : codepoint -> bool.
Variable is_case_ignorable : codepoint -> bool.

Local Abbreviation lower := (lower unicode_lower is_cased is_case_ignorable).
Local Abbreviation text_to_words :=
  (text_to_words unicode_lower is_cased is_case_ignorable).
Local Abbreviation count_occurences :=
  (count_occurences unicode_lower is_cased is_case_ignorable).

Lemma tokens_are_clean (text w : pystr) :
  lower_makes_no_capital unicode_lower ->
  In w (text_to_words text) -> clean_token w = true.
Proof.
  intros Hdb Hin. unfold text_to_words, split in Hin.
  destruct (split_from_words _ [] w eq_refl Hin) as [Hne Hsp].
  assert (Hp : no_punct w = true).
  { unfold no_punct. apply forallb_forall. intros c Hc.
    pose proof (split_from_chars _ [] w c Hin Hc) as Hc'. simpl in Hc'.
    pose proof (remove_punctuation_no_punct (lower text)) as Hp.
    unfold no_punct in Hp. rewrite forallb_forall in Hp. now apply Hp. }
  assert (Hu : no_capital w = true).
  { unfold no_capital. apply forallb_forall. intros c Hc.
    pose proof (split_from_chars _ [] w c Hin Hc) as Hc'. simpl in Hc'.
    unfold remove_punctuation in Hc'. apply filter_In in Hc'.
    destruct Hc' as [Hc' _].
    pose proof (lower_from_no_capital unicode_lower is_cased
                  is_case_ignorable text [] Hdb) as Hl.
    unfold no_capital in Hl. rewrite forallb_forall in Hl. now apply Hl. }
  unfold clean_token. destruct w; [contradiction | ].
  now rewrite Hsp, Hp, Hu.
Qed.

(** X8: counting with two word lists put together: the count for [A ++ B]
    and the count for the terms of [A] that are also in [B] add up to the
    count for [A] plus the count for [B]; so the count for [A ++ B] is the
    sum of the two counts when the lists share no term. *)
Theorem count_occurences_two_lists (t : pystr) (A B : list pystr) :
  count_occurences t (A ++ B)
  + count_occurences t (filter (fun x => str_in x B) A)
  = count_occurences t A + count_occurences t B
  /\ ((forall x, In x A -> ~ In x B) ->
      count_occurences t (A ++ B)
      = count_occurences t A + count_occurences t B).
Proof.
  assert (E : count_occurences t (A ++ B)
              + count_occurences t (filter (fun x => str_in x B) A)
              = count_occurences t A + count_occurences t B)
    by (unfold count_occurences; apply tokens_in_or_out).
  split; [exact E | ].
  intro Hdisjoint.
  pose proof (no_common_terms A B Hdisjoint) as Hnone.
  rewrite Hnone in E. unfold count_occurences in E at 2. simpl in E.
  rewrite (filter_false (text_to_words t)) in E. simpl in E. lia.
Qed.

(** X9: a term of the word list that is empty or holds a capital letter, a
    punctuation character or white space never matches: the count is the
    same with those terms taken out of the list. *)
Theorem count_occurences_ignores_unclean_terms
        (t : pystr) (word_list : list pystr) :
  lower_makes_no_capital unicode_lower ->
  count_occurences t word_list
  = count_occurences t (filter clean_token word_list).
Proof.
  intro Hdb. unfold count_occurences. f_equal. apply filter_ext_in.
  intros w Hw. apply eq_iff_eq_true. rewrite !str_in_In, filter_In.
  pose proof (tokens_are_clean t w Hdb Hw). tauto.
Qed.

(** X10: the count never exceeds [word_count] of the raw text: the matches
    are at most as many as the white-space separated chunks. *)
Theorem count_occurences_at_most_word_count
        (t : pystr) (word_list : list pystr) :
  lower_keeps_space unicode_lower ->
  lower_makes_no_space unicode_lower ->
  count_occurences t word_list <= word_count t.
Proof.
  intros Hsp Hns. unfold count_occurences.
  apply Nat.le_trans with (length (text_to_words t));
    [apply filter_length_bound | ].
  rewrite word_count_starts. unfold text_to_words, split.
  rewrite split_from_length.
  pose proof (word_starts_lower unicode_lower is_cased is_case_ignorable
                t [] false false Hsp Hns (fun H => H)) as H.
  simpl in H. unfold lower. lia.
Qed.

End WordListFacts.

(** ** ASCII texts *)

Lemma ascii_lower_is_ascii (c : codepoint) :
  is_ascii (ascii_lower c) = is_ascii c.
Proof.
  unfold ascii_lower. destruct (is_ascii_upper c) eqn:E; [ | reflexivity].
  unfold is_ascii_upper in E. bool_to_prop. unfold is_ascii.
  destruct (N.ltb_spec c 128), (N.ltb_spec (c + 32) 128); (reflexivity || lia).
Qed.

Lemma ascii_lower_punct (c : codepoint) :
  is_punct (ascii_lower c) = is_punct c.
Proof.
  unfold ascii_lower. destruct (is_ascii_upper c) eqn:E; [ | reflexivity].
  unfold is_ascii_upper in E. bool_to_prop.
  apply eq_iff_eq_true. rewrite !is_punct_ranges. lia.
Qed.

Lemma ascii_lower_twice (c : codepoint) :
  ascii_lower (ascii_lower c) = ascii_lower c.
Proof.
  apply ascii_lower_fixes_uncased, ascii_lower_not_capital.
Qed.

Lemma remove_punctuation_lowered (s : pystr) :
  remove_punctuation (map ascii_lower s)
  = map ascii_lower (remove_punctuation s).
Proof.
  induction s as [ | c rest IH]; [reflexivity | ].
  cbn [map remove_punctuation filter]. fold (is_punct (ascii_lower c)).
  fold (is_punct c). rewrite ascii_lower_punct.
  fold (remove_punctuation (map ascii_lower rest)).
  fold (remove_punctuation rest).
  destruct (is_punct c); simpl; now rewrite IH.
Qed.

Lemma remove_punctuation_twice (s : pystr) :
  remove_punctuation (remove_punctuation s) = remove_punctuation s.
Proof.
  unfold remove_punctuation at 1. apply forallb_filter_id.
  apply (remove_punctuation_no_punct s).
Qed.

Lemma remove_punctuation_ascii (s : pystr) :
  forallb is_ascii s = true -> forallb is_ascii (remove_punctuation s) = true.
Proof.
  rewrite !forallb_forall. intros H c Hc. apply filter_In in Hc.
  now apply H.
Qed.

Lemma lowered_ascii (s : pystr) :
  forallb is_ascii s = true -> forallb is_ascii (map ascii_lower s) = true.
Proof.
  rewrite !forallb_forall. intros H c Hc. apply in_map_iff in Hc.
  destruct Hc as (d & <- & Hd). rewrite ascii_lower_is_ascii. now apply H.
Qed.

Lemma split_from_lowered (s cur : pystr) :
  split_from (map ascii_lower cur) (map ascii_lower s)
  = map (map ascii_lower) (split_from cur s).
Proof.
  revert cur. induction s as [ | c rest IH]; intro cur.
  - cbn. now destruct cur.
  - cbn [map split_from]. rewrite ascii_lower_space.
    destruct (py_isspace c).
    + rewrite map_app. specialize (IH []). cbn [map] in IH. rewrite IH.
      now destruct cur.
    + rewrite <- IH, map_app. reflexivity.
Qed.

Lemma lowered_uncased (w : pystr) :
  no_capital w = true -> map ascii_lower w = w.
Proof.
  induction w as [ | c rest IH]; intro H; [reflexivity | ].
  simpl in H. apply andb_true_iff in H. destruct H as [Hc Hrest].
  apply negb_true_iff in Hc. simpl.
  now rewrite (ascii_lower_fixes_uncased c Hc), (IH Hrest).
Qed.

Section AsciiTexts.

Variable unicode_lower : codepoint -> list codepoint.
Variable is_cased : codepoint -> bool.
Variable is_case_ignorable : codepoint -> bool.

Local Abbreviation lower := (lower unicode_lower is_cased is_case_ignorable).
Local Abbreviation text_to_words :=
  (text_to_words unicode_lower is_cased is_case_ignorable).

Lemma lower_ascii (t : pystr) :
  forallb is_ascii t = true -> lower t = map ascii_lower t.
Proof.
  apply (lower_from_ascii unicode_lower is_cased is_case_ignorable t []).
Qed.

Lemma text_to_words_ascii (t : pystr) :
  forallb is_ascii t = true ->
  text_to_words t = map (map ascii_lower) (split (remove_punctuation t)).
Proof.
  intro H. unfold text_to_words. rewrite (lower_ascii t H).
  rewrite remove_punctuation_lowered. unfold split.
  apply (split_from_lowered (remove_punctuation t) []).
Qed.

Lemma text_to_words_clean_ascii (w : pystr) :
  clean_token w = true -> forallb is_ascii w = true ->
  text_to_words w = [w].
Proof.
  intros Hw Ha. unfold clean_token in Hw.
  destruct w as [ | c rest]; [discriminate | ].
  apply andb_true_iff in Hw. destruct Hw as [Hw Hu].
  apply andb_true_iff in Hw. destruct Hw as [Hs Hp].
  unfold text_to_words. rewrite (lower_ascii _ Ha), (lowered_uncased _ Hu).
  replace (remove_punctuation (c :: rest)) with (c :: rest)
    by (symmetry;
        apply (forallb_filter_id (fun ch => negb (char_in ch p)));
        exact Hp).
  unfold split.
  pose proof (split_from_word (c :: rest) [] [] Hs) as E.
  rewrite app_nil_r in E. now rewrite E.
Qed.

(** X11: for an ASCII text the order of the steps does not matter: the
    tokens are the white-space separated chunks of the text without its
    punctuation, each lower-cased, so there are as many tokens as
    [word_count] finds words once the punctuation is deleted. *)
Theorem text_to_words_ascii_chunks (t : pystr) :
  forallb is_ascii t = true ->
  text_to_words t = map (map ascii_lower) (split (remove_punctuation t))
  /\ length (text_to_words t) = word_count (remove_punctuation t).
Proof.
  intro H. rewrite (text_to_words_ascii t H). split; [reflexivity | ].
  unfold word_count. apply length_map.
Qed.

(** X12: lower-casing an ASCII text or deleting its punctuation beforehand
    changes nothing: the tokens are those of the text as it was. *)
Theorem text_to_words_ascii_prepared (t : pystr) :
  forallb is_ascii t = true ->
  text_to_words (map ascii_lower t) = text_to_words t
  /\ text_to_words (remove_punctuation t) = text_to_words t.
Proof.
  intro H. split.
  - unfold text_to_words.
    rewrite (lower_ascii _ (lowered_ascii t H)), (lower_ascii t H).
    now rewrite map_map, (map_ext _ _ ascii_lower_twice).
  - rewrite (text_to_words_ascii _ (remove_punctuation_ascii t H)).
    rewrite (text_to_words_ascii t H). now rewrite remove_punctuation_twice.
Qed.

(** X13: a token of an ASCII text is its own tokenization: giving a token
    back to [text_to_words] returns that token alone. *)
Theorem text_to_words_ascii_token_fixed (t w : pystr) :
  forallb is_ascii t = true ->
  In w (text_to_words t) ->
  text_to_words w = [w].
Proof.
  intros H Hin. apply text_to_words_clean_ascii.
  - rewrite (text_to_words_ascii t H) in Hin. apply in_map_iff in Hin.
    destruct Hin as (chunk & <- & Hchunk). unfold split in Hchunk.
    destruct (split_from_words _ [] chunk eq_refl Hchunk) as [Hne Hsp].
    assert (Hp : no_punct chunk = true).
    { unfold no_punct. apply forallb_forall. intros c Hc.
      pose proof (split_from_chars _ [] chunk c Hchunk Hc) as Hc'.
      simpl in Hc'. pose proof (remove_punctuation_no_punct t) as Hp.
      unfold no_punct in Hp. rewrite forallb_forall in Hp. now apply Hp. }
    unfold clean_token. destruct chunk as [ | c rest]; [contradiction | ].
    assert (E1 : no_space (map ascii_lower (c :: rest)) = true).
    { unfold no_space in *. rewrite forallb_forall in *. intros d Hd.
      apply in_map_iff in Hd. destruct Hd as (e & <- & He).
      rewrite ascii_lower_space. now apply Hsp. }
    assert (E2 : no_punct (map ascii_lower (c :: rest)) = true).
    { unfold no_punct in *. rewrite forallb_forall in *. intros d Hd.
      apply in_map_iff in Hd. destruct Hd as (e & <- & He).
      rewrite ascii_lower_punct. now apply Hp. }
    assert (E3 : no_capital (map ascii_lower (c :: rest)) = true).
    { unfold no_capital. rewrite forallb_forall. intros d Hd.
      apply in_map_iff in Hd. destruct Hd as (e & <- & He).
      now rewrite ascii_lower_not_capital. }
    rewrite E1, E2, E3. reflexivity.
  - rewrite (text_to_words_ascii t H) in Hin. apply in_map_iff in Hin.
    destruct Hin as (chunk & <- & Hchunk). apply lowered_ascii.
    apply forallb_forall. intros c Hc. unfold split in Hchunk.
    pose proof (split_from_chars _ [] chunk c Hchunk Hc) as Hc'.
    simpl in Hc'.
    pose proof (remove_punctuation_ascii t H) as Ha.
    rewrite forallb_forall in Ha. now apply Ha.
Qed.

End AsciiTexts.

(** ** Applying the functions to a column *)

Lemma series_apply_strings {A : Type} (f : pyobj -> result A)
      (g : pystr -> A) (texts : list pystr) :
  (forall s, f (PyStr s) = Ok (g s)) ->
  series_apply f (map PyStr texts) = Ok (map g texts).
Proof.
  intro Hf. induction texts as [ | t rest IH]; [reflexivity | ].
  simpl. now rewrite Hf, IH.
Qed.

Lemma series_apply_raises {A : Type} (f : pyobj -> result A)
      (column : list pyobj) :
  (forall v, is_str v = false -> f v = Raise AttributeError) ->
  (forall v, f v = Raise AttributeError \/ exists a, f v = Ok a) ->
  forallb is_str column = false ->
  series_apply f column = Raise AttributeError.
Proof.
  intros Hf Htot. induction column as [ | row rest IH]; [discriminate | ].
  simpl. intro H. apply andb_false_iff in H.
  destruct (Htot row) as [E | [a E]]; rewrite E; [reflexivity | ].
  destruct H as [H | H].
  - rewrite (Hf row H) in E. discriminate.
  - now rewrite (IH H).
Qed.

Section Columns.

Variable unicode_lower : codepoint -> list codepoint.
Variable is_cased : codepoint -> bool.
Variable is_case_ignorable : codepoint -> bool.

Local Abbreviation count_occurences :=
  (count_occurences unicode_lower is_cased is_case_ignorable).
Local Abbreviation py_count_occurences :=
  (py_count_occurences unicode_lower is_cased is_case_ignorable).

(** X14: applied to a column of strings, [word_count] and
    [count_occurences] give one number for each row, in the order of the
    rows; a single row that is not a string makes the whole call raise
    [AttributeError], no number being returned for any row. *)
Theorem column_apply_all_or_nothing (word_list : list pystr) :
  (forall texts,
      series_apply py_word_count (map PyStr texts)
      = Ok (map word_count texts))
  /\ (forall texts,
         series_apply (fun text => py_count_occurences text word_list)
                      (map PyStr texts)
         = Ok (map (fun text => count_occurences text word_list) texts))
  /\ (forall column,
         forallb is_str column = false ->
         series_apply py_word_count column = Raise AttributeError
         /\ series_apply (fun text => py_count_occurences text word_list)
                         column
            = Raise AttributeError).
Proof.
  split; [ | split].
  - intro texts. now apply series_apply_strings.
  - intro texts.
    now apply (series_apply_strings
                 (fun text => py_count_occurences text word_list)
                 (fun text => count_occurences text word_list)).
  - intros column H. split; apply series_apply_raises; try exact H.
    + now intros [ | | s].
    + intros [ | | s]; [now left | now left | right; eexists; reflexivity].
    + now intros [ | | s].
    + intros [ | | s]; [now left | now left | right; eexists; reflexivity].
Qed.

End Columns.

(** ** The sample tables and white space *)

Lemma sample_space_is_uncased :
  space_is_uncased sample_cased sample_case_ignorable.
Proof.
  intros c Hc. unfold py_isspace in Hc. split.
  - destruct (sample_cased c) eqn:E; [exfalso | reflexivity].
    unfold sample_cased in E. bool_to_prop. lia.
  - destruct (sample_case_ignorable c) eqn:E; [exfalso | reflexivity].
    unfold sample_case_ignorable in E. bool_to_prop. lia.
Qed.

(** ** The further statements at concrete inputs *)

Lemma word_count_zero_iff_blank_witness :
  forallb py_isspace [32; 9; 160; 10]%N = true
  /\ word_count [32; 9; 160; 10]%N = 0.
Proof.
  split; [reflexivity | ].
  apply (proj2 (word_count_zero_iff_blank [32; 9; 160; 10]%N)).
  reflexivity.
Defined.

Lemma word_count_across_space_witness :
  py_isspace 10%N = true
  /\ word_count (codes "two words" ++ 10%N :: codes "and three more")
     = word_count (codes "two words") + word_count (codes "and three more").
Proof.
  split; [reflexivity | ].
  apply (word_count_across_space (codes "two words")
                                 (codes "and three more") 10%N).
  reflexivity.
Defined.

Lemma split_joined_words_witness :
  split (concat (map (fun w => w ++ [32%N]) [codes "he"; codes "him"]))
  = [codes "he"; codes "him"].
Proof.
  apply (split_joined_words [codes "he"; codes "him"] 32%N).
  - reflexivity.
  - repeat constructor; discriminate.
Defined.

Lemma text_to_words_across_space_witness :
  sample_text_to_words ([913; 931]%N ++ 32%N :: [931; 945; 33]%N)
  = sample_text_to_words [913; 931]%N
    ++ sample_text_to_words [931; 945; 33]%N.
Proof.
  apply (text_to_words_across_space
           sample_lower sample_cased sample_case_ignorable
           sample_lower_keeps_space sample_space_is_uncased
           [913; 931]%N [931; 945; 33]%N 32%N).
  reflexivity.
Defined.

Lemma count_occurences_across_space_witness :
  sample_count_occurences (codes "He saw him." ++ 10%N :: codes "He left.")
                          [codes "he"; codes "him"]
  = sample_count_occurences (codes "He saw him.") [codes "he"; codes "him"]
    + sample_count_occurences (codes "He left.") [codes "he"; codes "him"].
Proof.
  apply (count_occurences_across_space
           sample_lower sample_cased sample_case_ignorable
           sample_lower_keeps_space sample_space_is_uncased
           (codes "He saw him.") (codes "He left.") 10%N
           [codes "he"; codes "him"]).
  reflexivity.
Defined.

Lemma count_occurences_ignores_unclean_terms_witness :
  sample_count_occurences (codes "He saw him. He's here.")
                          [codes "He"; codes "he's"; codes "him"; []]
  = sample_count_occurences
      (codes "He saw him. He's here.")
      (filter clean_token [codes "He"; codes "he's"; codes "him"; []]).
Proof.
  apply (count_occurences_ignores_unclean_terms
           sample_lower sample_cased sample_case_ignorable
           (codes "He saw him. He's here.")
           [codes "He"; codes "he's"; codes "him"; []]).
  exact sample_lower_makes_no_capital.
Defined.

Lemma count_occurences_at_most_word_count_witness :
  sample_count_occurences (codes "He saw him - twice.")
                          [codes "he"; codes "him"]
  <= word_count (codes "He saw him - twice.").
Proof.
  apply (count_occurences_at_most_word_count
           sample_lower sample_cased sample_case_ignorable
           (codes "He saw him - twice.") [codes "he"; codes "him"]).
  - exact sample_lower_keeps_space.
  - exact sample_lower_makes_no_space.
Defined.

Lemma text_to_words_ascii_chunks_witness :
  forallb is_ascii (codes "Don't stop - now!") = true
  /\ sample_text_to_words (codes "Don't stop - now!")
     = map (map ascii_lower)
           (split (remove_punctuation (codes "Don't stop - now!")))
  /\ length (sample_text_to_words (codes "Don't stop - now!"))
     = word_count (remove_punctuation (codes "Don't stop - now!")).
Proof.
  split; [reflexivity | ].
  apply (text_to_words_ascii_chunks
           sample_lower sample_cased sample_case_ignorable
           (codes "Don't stop - now!")).
  reflexivity.
Defined.

Lemma text_to_words_ascii_prepared_witness :
  forallb is_ascii (codes "Don't STOP!") = true
  /\ sample_text_to_words (map ascii_lower (codes "Don't STOP!"))
     = sample_text_to_words (codes "Don't STOP!")
  /\ sample_text_to_words (remove_punctuation (codes "Don't STOP!"))
     = sample_text_to_words (codes "Don't STOP!").
Proof.
  split; [reflexivity | ].
  apply (text_to_words_ascii_prepared
           sample_lower sample_cased sample_case_ignorable
           (codes "Don't STOP!")).
  reflexivity.
Defined.

Lemma text_to_words_ascii_token_fixed_witness :
  In (codes "dont") (sample_text_to_words (codes "Don't STOP!"))
  /\ sample_text_to_words (codes "dont") = [codes "dont"].
Proof.
  assert (Hin : In (codes "dont")
                   (sample_text_to_words (codes "Don't STOP!"))).
  { left. reflexivity. }
  split; [exact Hin | ].
  apply (text_to_words_ascii_token_fixed
           sample_lower sample_cased sample_case_ignorable
           (codes "Don't STOP!") (codes "dont")).
  - reflexivity.
  - exact Hin.
Defined.

Lemma column_apply_all_or_nothing_witness :
  forallb is_str [PyStr (codes "He left."); PyFloat; PyStr (codes "ok")]
  = false
  /\ series_apply py_word_count
                  [PyStr (codes "He left."); PyFloat; PyStr (codes "ok")]
     = Raise AttributeError.
Proof.
  split; [reflexivity | ].
  apply (proj2 (proj2 (column_apply_all_or_nothing
                         sample_lower sample_cased sample_case_ignorable
                         [codes "he"]))).
  reflexivity.
Defined.

Lemma count_occurences_two_lists_witness :
  sample_count_occurences (codes "He saw her and him.")
                          ([codes "he"; codes "him"] ++ [codes "her"])
  = sample_count_occurences (codes "He saw her and him.")
                            [codes "he"; codes "him"]
    + sample_count_occurences (codes "He saw her and him.") [codes "her"].
Proof.
  apply (proj2 (count_occurences_two_lists
                  sample_lower sample_cased sample_case_ignorable
                  (codes "He saw her and him.")
                  [codes "he"; codes "him"] [codes "her"])).
  intros x [<- | [<- | []]] [E | []]; discriminate E.
Defined.
